(** * firstrender: the students REST service

    A shallow embedding of the two programs of the repository,
    [src/main.go] (module [MainGo]) and [src/unnamed/part_000] (module
    [Part000]).  Both are a [main] function that loads configuration,
    connects to MongoDB, builds a gin router with two handlers and listens.
    The handlers are textually the same in the two files and are embedded
    once; the start-up sequences differ and are embedded separately.

    The third-party code the program calls (encoding/json through gin's
    binder, the MongoDB driver, godotenv) is not part of the repository; the
    part of its behaviour the handlers depend on is written out below as
    executable functions, each one marked as a library model. *)

From Stdlib Require Import ZArith Ascii String.
From stdpp Require Import gmap strings list sorting pretty.

#[local] Set Warnings "-register-all,-clear-no-such-hyp".

Open Scope string_scope.
Open Scope Z_scope.

(** ** JSON values

    A request body that the decoder can scan is the JSON value it reads;
    object members are kept in textual order, duplicates included.  A number
    keeps its literal, which is what encoding/json hands to strconv. *)

Inductive json : Type :=
  | JNull
  | JBool (b : bool)
  | JNumber (lit : string)
  | JString (s : string)
  | JArray (items : list json)
  | JObject (members : list (string * json)).

(** ** strconv.ParseInt(s, 10, 64) (library model) *)

Definition min_int64 : Z := - 2 ^ 63.
Definition max_int64 : Z := 2 ^ 63 - 1.

Definition digit_of (c : ascii) : option Z :=
  let n := Z.of_N (N_of_ascii c) in
  if (48 <=? n) && (n <=? 57) then Some (n - 48) else None.

Fixpoint parse_digits (acc : Z) (s : string) : option Z :=
  match s with
  | EmptyString => Some acc
  | String c rest =>
      match digit_of c with
      | Some d => parse_digits (acc * 10 + d) rest
      | None => None
      end
  end.

Definition ParseInt (s : string) : option Z :=
  let '(neg, digits) :=
    match s with
    | String "-"%char rest => (true, rest)
    | String "+"%char rest => (false, rest)
    | _ => (false, s)
    end in
  match digits with
  | EmptyString => None
  | _ =>
      match parse_digits 0 digits with
      | Some n =>
          let v := if neg then - n else n in
          if (min_int64 <=? v) && (v <=? max_int64) then Some v else None
      | None => None
      end
  end.

(** ** The Student struct

    [type Student struct { Name string `json:"name"`; Age int `json:"age"` }].
    Neither field carries a [binding] tag.  [int] is 64 bits wide. *)

Record Student : Type := mkStudent { Name : string; Age : Z }.

Definition zero_Student : Student := {| Name := ""; Age := 0 |}.

Inductive field : Type := FName | FAge.

Definition json_tag (f : field) : string :=
  match f with FName => "name" | FAge => "age" end.

Definition go_type (f : field) : string :=
  match f with FName => "string" | FAge => "int" end.

(** ** Binding errors *)

Inductive bind_error : Type :=
  | SyntaxError (msg : string)
  | UnmarshalTypeError (value : string) (into : option field).

Definition Error (e : bind_error) : string :=
  match e with
  | SyntaxError msg => msg
  | UnmarshalTypeError value None =>
      "json: cannot unmarshal " ++ value ++ " into Go value of type main.Student"
  | UnmarshalTypeError value (Some f) =>
      "json: cannot unmarshal " ++ value ++ " into Go struct field Student."
        ++ json_tag f ++ " of type " ++ go_type f
  end.

(** ** encoding/json decoding into a Student (library model)

    A key selects the field whose tag it equals, or failing that the first
    field whose tag it equals up to letter case; other keys are skipped.  A
    [null] leaves the field as it is.  A value of the wrong kind records a
    type error (the first one is kept) and decoding goes on.  The error
    names the kind of the value; only a number that does not fit the [int]
    field is named with its literal. *)

Definition lower_ascii (c : ascii) : ascii :=
  let n := N_of_ascii c in
  if (65 <=? n)%N && (n <=? 90)%N then ascii_of_N (n + 32) else c.

Fixpoint to_lower (s : string) : string :=
  match s with
  | EmptyString => EmptyString
  | String c rest => String (lower_ascii c) (to_lower rest)
  end.

Definition find_field (key : string) : option field :=
  if String.eqb key "name" then Some FName
  else if String.eqb key "age" then Some FAge
  else if String.eqb (to_lower key) "name" then Some FName
  else if String.eqb (to_lower key) "age" then Some FAge
  else None.

Definition describe (v : json) : string :=
  match v with
  | JNull => "null"
  | JBool _ => "bool"
  | JNumber _ => "number"
  | JString _ => "string"
  | JArray _ => "array"
  | JObject _ => "object"
  end.

Definition store_field (f : field) (v : json) (s : Student)
  : Student * option bind_error :=
  match v, f with
  | JNull, _ => (s, None)
  | JString x, FName => ({| Name := x; Age := Age s |}, None)
  | JNumber lit, FAge =>
      match ParseInt lit with
      | Some n => ({| Name := Name s; Age := n |}, None)
      | None => (s, Some (UnmarshalTypeError ("number " ++ lit) (Some f)))
      end
  | _, _ => (s, Some (UnmarshalTypeError (describe v) (Some f)))
  end.

Definition saveError (saved new : option bind_error) : option bind_error :=
  match saved with
  | Some e => Some e
  | None => new
  end.

Definition decode_member (acc : Student * option bind_error)
    (m : string * json) : Student * option bind_error :=
  match find_field m.1 with
  | None => acc
  | Some f =>
      let '(s, e) := store_field f m.2 acc.1 in (s, saveError acc.2 e)
  end.

Definition Unmarshal (v : json) : Student * option bind_error :=
  match v with
  | JObject members => fold_left decode_member members (zero_Student, None)
  | JNull => (zero_Student, None)
  | _ => (zero_Student, Some (UnmarshalTypeError (describe v) None))
  end.

(** ** Requests and gin's ShouldBindJSON (library model)

    The body is either text the JSON scanner rejects (an empty body
    included), with the scanner's message, or the value it reads.  The
    binder decodes and then runs the validator, which checks [binding]
    tags only: Student has none, so validation never fails. *)

Inductive request_body : Type :=
  | Malformed (msg : string)
  | Parsed (v : json).

Inductive result (A E : Type) : Type :=
  | Ok (a : A)
  | Err (e : E).
Arguments Ok {A E} a.
Arguments Err {A E} e.

Definition validate (s : Student) : option bind_error := None.

Definition ShouldBindJSON (b : request_body) : result Student bind_error :=
  match b with
  | Malformed msg => Err (SyntaxError msg)
  | Parsed v =>
      match Unmarshal v with
      | (_, Some e) => Err e
      | (s, None) =>
          match validate s with
          | Some e => Err e
          | None => Ok s
          end
      end
  end.

(** ** BSON documents and Go slices

    A stored document, and a [bson.M] read back from the cursor, is a finite
    map from field names to values.  A Go slice is either nil or backed by
    an array: [var results []bson.M] declares the nil one, and encoding/json
    writes a nil slice as [null] and any other as an array. *)

Definition ObjectID : Type := string.

Inductive bvalue : Type :=
  | BObjectID (id : ObjectID)
  | BString (s : string)
  | BInt (n : Z)
  | BBool (b : bool)
  | BNull.

Inductive slice (A : Type) : Type :=
  | SliceNil
  | SliceOf (elems : list A).
Arguments SliceNil {A}.
Arguments SliceOf {A} elems.

Definition append {A : Type} (s : slice A) (x : A) : slice A :=
  match s with
  | SliceNil => SliceOf [x]
  | SliceOf elems => SliceOf (elems ++ [x])
  end.

(** ** encoding/json output (library model)

    A map is written as an object with its keys in increasing byte order;
    an ObjectID is written as its hex string. *)

Definition key_le (a b : string * json) : Prop := String.leb a.1 b.1.

#[local] Instance key_le_dec (a b : string * json) : Decision (key_le a b) :=
  Is_true_dec (String.leb a.1 b.1).

Definition encode_map (m : gmap string json) : json :=
  JObject (merge_sort key_le (map_to_list m)).

Definition encode_bvalue (v : bvalue) : json :=
  match v with
  | BObjectID id => JString id
  | BString s => JString s
  | BInt n => JNumber (pretty n)
  | BBool b => JBool b
  | BNull => JNull
  end.

Definition encode_M (m : gmap string bvalue) : json :=
  encode_map (encode_bvalue <$> m).

Definition encode_results (results : slice (gmap string bvalue)) : json :=
  match results with
  | SliceNil => JNull
  | SliceOf elems => JArray (encode_M <$> elems)
  end.

(** gin.H is [map[string]any]; the handlers only put strings in it. *)
Definition H (entries : list (string * string)) : json :=
  encode_map (list_to_map (prod_map id JString <$> entries)).

(** ** The world a handler runs in

    [collection] is the content of students.theirdata, [written] the
    responses written to the gin context so far (oldest first), [calls] the
    driver calls made so far (oldest first). *)

Inductive db_call : Type :=
  | CallFind (timeout_s : Z)
  | CallAll
  | CallClose
  | CallInsertOne (timeout_s : Z) (doc : Student).

Record response : Type := mkResponse { status : Z; body : json }.

Record world : Type := mkWorld {
  collection : list (gmap string bvalue);
  written : list response;
  calls : list db_call
}.

Definition Handler (A : Type) : Type := world → A * world.

#[local] Instance Handler_ret : MRet Handler := λ A a w, (a, w).

#[local] Instance Handler_bind : MBind Handler :=
  λ A B k m w, let '(a, w') := m w in k a w'.

Definition record_call (c : db_call) : Handler unit :=
  λ w, (tt, {| collection := collection w; written := written w;
               calls := calls w ++ [c] |}).

(** [c.JSON(code, obj)]: one response written to the context. *)
Definition c_JSON (code : Z) (obj : json) : Handler unit :=
  λ w, (tt, {| collection := collection w;
               written := written w ++ [mkResponse code obj];
               calls := calls w |}).

Definition StatusOK : Z := 200.
Definition StatusCreated : Z := 201.
Definition StatusBadRequest : Z := 400.
Definition StatusInternalServerError : Z := 500.

(** ** The MongoDB driver (library model)

    What the database and the network do during one request is given from
    outside: whether Find and All fail, and how InsertOne ends.  A failed
    insert may or may not have reached the server. *)

Inductive insert_outcome : Type :=
  | Inserted (id : ObjectID)
  | InsertFailed (stored : option ObjectID).

Record driver_env : Type := mkDriverEnv {
  find_fails : bool;
  all_fails : bool;
  insert_ends : insert_outcome
}.

Record Cursor : Type := mkCursor { batch : list (gmap string bvalue) }.

Record InsertOneResult : Type := mkInsertOneResult { InsertedID : ObjectID }.

Definition marshal_Student (s : Student) : gmap string bvalue :=
  {[ "name" := BString (Name s); "age" := BInt (Age s) ]}.

Definition with_id (id : ObjectID) (doc : gmap string bvalue)
  : gmap string bvalue :=
  <["_id" := BObjectID id]> doc.

Definition store (doc : gmap string bvalue) : Handler unit :=
  λ w, (tt, {| collection := collection w ++ [doc]; written := written w;
               calls := calls w |}).

Definition Find (e : driver_env) (timeout_s : Z)
  : Handler (result Cursor unit) :=
  record_call (CallFind timeout_s);;
  if find_fails e then mret (Err ())
  else λ w, (Ok (mkCursor (collection w)), w).

(** [cursor.All(ctx, &results)] appends every document of the cursor to the
    slice it is given and stores the outcome back: with no document to
    append, a nil slice stays nil. *)
Definition All (e : driver_env) (cursor : Cursor)
    (results : slice (gmap string bvalue))
  : Handler (result (slice (gmap string bvalue)) unit) :=
  record_call CallAll;;
  if all_fails e then mret (Err ())
  else mret (Ok (fold_left append (batch cursor) results)).

Definition Close (cursor : Cursor) : Handler unit := record_call CallClose.

Definition InsertOne (e : driver_env) (timeout_s : Z) (doc : Student)
  : Handler (result InsertOneResult unit) :=
  record_call (CallInsertOne timeout_s doc);;
  match insert_ends e with
  | Inserted id =>
      store (with_id id (marshal_Student doc));;
      mret (Ok (mkInsertOneResult id))
  | InsertFailed (Some id) =>
      store (with_id id (marshal_Student doc));;
      mret (Err ())
  | InsertFailed None => mret (Err ())
  end.

(** ** The handlers

    [r.GET("/students", ...)] and [r.POST("/students", ...)], the same in
    both files.  An [if err != nil { c.JSON(...); return }] is the [Err]
    branch of a match; [defer cursor.Close(ctx)] runs once the rest of the
    function is over.  The [context.WithTimeout] of each handler is the
    timeout handed to its driver call. *)

Definition get_students (e : driver_env) : Handler unit :=
  found ← Find e 10;
  match found with
  | Err _ =>
      c_JSON StatusInternalServerError (H [("error", "Failed to fetch documents")])
  | Ok cursor =>
      decoded ← All e cursor SliceNil;
      match decoded with
      | Err _ =>
          c_JSON StatusInternalServerError
            (H [("error", "Failed to decode documents")])
      | Ok results => c_JSON StatusOK (encode_results results)
      end;;
      Close cursor
  end.

Definition post_students (e : driver_env) (b : request_body) : Handler unit :=
  match ShouldBindJSON b with
  | Err err => c_JSON StatusBadRequest (H [("error", Error err)])
  | Ok newStudent =>
      inserted ← InsertOne e 5 newStudent;
      match inserted with
      | Err _ =>
          c_JSON StatusInternalServerError
            (H [("error", "Failed to insert document")])
      | Ok result =>
          c_JSON StatusCreated
            (H [("message", "Student added successfully!");
                ("insertedID", InsertedID result)])
      end
  end.

(** ** The router

    [gin.Default()] is an engine without routes; [r.Use], [r.GET] and
    [r.POST] extend it.  [cors.Config] is kept as the record the program
    builds. *)

Record Config : Type := mkConfig {
  AllowOrigins : list string;
  AllowMethods : list string;
  AllowHeaders : list string;
  AllowCredentials : bool
}.

Record route : Type := mkRoute {
  method : string;
  path : string;
  handler : driver_env → request_body → Handler unit
}.

Record Engine : Type := mkEngine {
  middleware : list Config;
  routes : list route
}.

Definition Default : Engine := {| middleware := []; routes := [] |}.

Definition Use (r : Engine) (c : Config) : Engine :=
  {| middleware := middleware r ++ [c]; routes := routes r |}.

Definition GET (r : Engine) (p : string)
    (h : driver_env → request_body → Handler unit) : Engine :=
  {| middleware := middleware r; routes := routes r ++ [mkRoute "GET" p h] |}.

Definition POST (r : Engine) (p : string)
    (h : driver_env → request_body → Handler unit) : Engine :=
  {| middleware := middleware r; routes := routes r ++ [mkRoute "POST" p h] |}.

Definition lookup_route (r : Engine) (m p : string) : option route :=
  find (λ rt, String.eqb (method rt) m && String.eqb (path rt) p) (routes r).

(** ** Process start

    What [main] finds outside the program: the parsed content of the local
    .env file ([None] when it cannot be found or parsed), the environment of
    the process, how connecting and pinging end ([Some] is the error
    text), and what the system answers when a listener is asked for on an
    address ([Some]: the port is taken, may not be bound, or is a name that
    stands for no port).  [main] runs over the process environment, which
    godotenv extends, and leaves a trace of what it did; [log.Fatal] writes
    its line and exits with status 1, so nothing after it runs.  When
    [main] returns, the process exits with status 0. *)

Record machine : Type := mkMachine {
  dotenv_file : option (gmap string string);
  environ : gmap string string;
  connect_error : option string;
  ping_error : option string;
  listen_error : string → option string
}.

Inductive event : Type :=
  | Stdout (line : string)
  | Log (line : string)
  | Connected (uri : string)
  | Pinged (timeout_s : Z)
  | Listen (r : Engine) (addr : string)
  | Exit (code : Z).

Record process : Type := mkProcess {
  env : gmap string string;
  trace : list event
}.

Definition Startup (A : Type) : Type := process → option A * process.

#[local] Instance Startup_ret : MRet Startup := λ A a p, (Some a, p).

#[local] Instance Startup_bind : MBind Startup :=
  λ A B k m p,
    match m p with
    | (Some a, p') => k a p'
    | (None, p') => (None, p')
    end.

Definition emit (ev : event) : Startup unit :=
  λ p, (Some tt, {| env := env p; trace := trace p ++ [ev] |}).

Definition log_Fatal {A : Type} (line : string) : Startup A :=
  λ p, (None, {| env := env p; trace := trace p ++ [Log line; Exit 1] |}).

Definition log_Println (line : string) : Startup unit := emit (Log line).

Definition fmt_Println (line : string) : Startup unit := emit (Stdout line).

Definition os_Getenv (key : string) : Startup string :=
  λ p, (Some (default "" (env p !! key)), p).

(** godotenv.Load (library model): variables already set are kept. *)
Definition godotenv_Load (m : machine) : Startup (result unit unit) :=
  λ p,
    match dotenv_file m with
    | None => (Some (Err ()), p)
    | Some vars => (Some (Ok ()), {| env := env p ∪ vars; trace := trace p |})
    end.

Definition mongo_Connect (m : machine) (uri : string)
  : Startup (result unit string) :=
  match connect_error m with
  | Some err => mret (Err err)
  | None => emit (Connected uri);; mret (Ok ())
  end.

Definition client_Ping (m : machine) (timeout_s : Z)
  : Startup (result unit string) :=
  emit (Pinged timeout_s);;
  match ping_error m with
  | Some err => mret (Err err)
  | None => mret (Ok ())
  end.

(** net.Listen("tcp", addr) (library model): a port written in digits
    must not exceed 65535; for the rest the system decides. *)
Definition net_Listen (m : machine) (addr : string) : option string :=
  match addr with
  | String ":" (String c rest) =>
      match parse_digits 0 (String c rest) with
      | Some n =>
          if n <=? 65535 then listen_error m addr
          else Some ("listen tcp: address " ++ String c rest ++ ": invalid port")
      | None => listen_error m addr
      end
  | _ => listen_error m addr
  end.
Arguments net_Listen : simpl never.

(** [r.Run(addr)] (library model): once the listener is open the call
    serves requests and does not return, so nothing after it runs; when
    the listener cannot be opened it returns the error. *)
Definition Run (m : machine) (r : Engine) (addr : string)
  : Startup (result unit string) :=
  λ p,
    match net_Listen m addr with
    | None => (None, {| env := env p; trace := trace p ++ [Listen r addr] |})
    | Some err => (Some (Err err), p)
    end.

(** The events of a whole run of [main]: what it did and, if it returned,
    the exit with status 0. *)
Definition execute (main : Startup unit) (p : process) : list event :=
  match main p with
  | (Some _, p') => trace p' ++ [Exit 0]
  | (None, p') => trace p'
  end.

(** The part of [main] from the MONGODB_URI check to the ping is the same
    in both files. *)
Definition connect_database (m : machine) : Startup unit :=
  uri ← os_Getenv "MONGODB_URI";
  (if decide (uri = "")
   then log_Fatal "You must set MONGODB_URI environment variable"
   else mret ());;
  connected ← mongo_Connect m uri;
  match connected with
  | Err err => log_Fatal ("MongoDB connection error:" ++ err)
  | Ok _ => mret ()
  end;;
  pinged ← client_Ping m 15;
  match pinged with
  | Err err => log_Fatal ("MongoDB ping failed:" ++ err)
  | Ok _ => mret ()
  end;;
  fmt_Println "Pinged your deployment. You successfully connected to MongoDB!".

Definition start (m : machine) : process :=
  {| env := environ m; trace := [] |}.

(** ** src/main.go *)
Module MainGo.

Definition cors_config : Config :=
  {| AllowOrigins := ["http://localhost:5173"];
     AllowMethods := ["GET"; "POST"; "PUT"; "DELETE"];
     AllowHeaders := ["Origin"; "Content-Type"];
     AllowCredentials := true |}.

Definition router : Engine :=
  let r := Default in
  let r := Use r cors_config in
  let r := GET r "/students" (λ e _, get_students e) in
  POST r "/students" post_students.

Definition main (m : machine) : Startup unit :=
  loaded ← godotenv_Load m;
  match loaded with
  | Err _ => log_Fatal "Error loading .env file"
  | Ok _ => mret ()
  end;;
  port ← os_Getenv "PORT";
  fmt_Println ("Main package -> PORT: " ++ port);;
  connect_database m;;
  failed ← Run m router ":8080";
  mret ().

Definition run (m : machine) : list event := execute (main m) (start m).

End MainGo.

(** ** src/unnamed/part_000 *)
Module Part000.

Definition cors_config : Config :=
  {| AllowOrigins :=
       ["http://localhost:5173"; "https://your-render-service.onrender.com"];
     AllowMethods := ["GET"; "POST"; "PUT"; "DELETE"];
     AllowHeaders := ["Origin"; "Content-Type"];
     AllowCredentials := true |}.

Definition router : Engine :=
  let r := Default in
  let r := Use r cors_config in
  let r := GET r "/students" (λ e _, get_students e) in
  POST r "/students" post_students.

Definition main (m : machine) : Startup unit :=
  loaded ← godotenv_Load m;
  match loaded with
  | Err _ => log_Println "No .env file found, using Render environment variables"
  | Ok _ => mret ()
  end;;
  shown ← os_Getenv "PORT";
  fmt_Println ("Main package -> PORT: " ++ shown);;
  connect_database m;;
  port ← os_Getenv "PORT";
  let port := if decide (port = "") then "8080" else port in
  failed ← Run m router (":" ++ port);
  mret ().

Definition run (m : machine) : list event := execute (main m) (start m).

End Part000.

(** ** Predicates used in the statements *)

(** [mismatch f v]: storing [v] in field [f] records a type error. *)
Definition mismatch (f : field) (v : json) : bool :=
  match v, f with
  | JNull, _ => false
  | JString _, FName => false
  | JNumber lit, FAge => bool_decide (ParseInt lit = None)
  | _, _ => true
  end.

Definition member_ok (m : string * json) : bool :=
  match find_field m.1 with
  | Some f => negb (mismatch f m.2)
  | None => true
  end.

(** The bodies the binder refuses. *)
Definition refused (b : request_body) : bool :=
  match b with
  | Malformed _ => true
  | Parsed (JObject members) => negb (forallb member_ok members)
  | Parsed JNull => false
  | Parsed _ => true
  end.


(** The body is an object with an [age] member that is neither [null] nor
    an integer literal that fits an [int]. *)
Definition age_not_integer (b : request_body) : Prop :=
  ∃ members k v, b = Parsed (JObject members) ∧ (k, v) ∈ members ∧
    find_field k = Some FAge ∧ mismatch FAge v = true.

(** POST answered 400: one response, carrying the text of the error the
    binder returned for this body, no driver call made and the collection
    as it was. *)
Definition answered_400 (e : driver_env) (b : request_body) (w : world) : Prop :=
  let w' := (post_students e b w).2 in
  (∃ err, ShouldBindJSON b = Err err ∧
     written w' =
     (written w ++ [mkResponse 400 (JObject [("error", JString (Error err))])])%list)
  ∧ calls w' = calls w
  ∧ collection w' = collection w.


Definition student_fields : gset string := {[ "_id"; "name"; "age" ]}.

Definition well_shaped (doc : gmap string bvalue) : Prop :=
  dom doc = student_fields.

(** The value [key] has once the .env file is loaded. *)
Definition resolved (m : machine) (key : string) : string :=
  default "" ((environ m ∪ default ∅ (dotenv_file m)) !! key).

Definition listens (tr : list event) : Prop :=
  ∃ r addr, Listen r addr ∈ tr.

Definition some_world : world :=
  {| collection := []; written := []; calls := [] |}.

Definition healthy : driver_env :=
  {| find_fails := false; all_fails := false; insert_ends := Inserted "6541f0c2a1b2c3d4e5f60718" |}.

Definition render_machine : machine :=
  {| dotenv_file := None;
     environ := {[ "MONGODB_URI" := "mongodb+srv://cluster0.example.net"; "PORT" := "10000" ]};
     connect_error := None;
     ping_error := None;
     listen_error := λ _, None |}.

Definition local_machine : machine :=
  {| dotenv_file := Some {[ "MONGODB_URI" := "mongodb://localhost:27017"; "PORT" := "9000" ]};
     environ := ∅;
     connect_error := None;
     ping_error := None;
     listen_error := λ _, None |}.

Definition wrong_port_machine : machine :=
  {| dotenv_file := None;
     environ := {[ "MONGODB_URI" := "mongodb://db.internal:27017";
                   "PORT" := "99999" ]};
     connect_error := None;
     ping_error := None;
     listen_error := λ _, None |}.

(** Several create requests served one after the other, each with what
    the driver does during it. *)
Fixpoint post_all (reqs : list (driver_env * request_body)) : Handler unit :=
  match reqs with
  | [] => mret ()
  | req :: rest => post_students req.1 req.2;; post_all rest
  end.

(** The request binds to [s], its insert succeeds with [id], and [doc] is
    the document stored for it. *)
Definition created_as (req : driver_env * request_body)
    (doc : gmap string bvalue) : Prop :=
  ∃ s id, ShouldBindJSON req.2 = Ok s ∧ insert_ends req.1 = Inserted id ∧
          doc = with_id id (marshal_Student s).


(** The address src/unnamed/part_000 hands to [r.Run]. *)
Definition chosen_address (m : machine) : string :=
  ":" ++ if decide (resolved m "PORT" = "") then "8080" else resolved m "PORT".

(** What the end of a reachable start-up leaves in the trace: the listener
    when it can be opened on [addr], the exit with status 0 when not. *)
Definition served_or_exit (m : machine) (r : Engine) (addr : string) : event :=
  match net_Listen m addr with
  | None => Listen r addr
  | Some _ => Exit 0
  end.

(** Database and configuration are such that start-up gets through. *)
Definition reachable (m : machine) : Prop :=
  resolved m "MONGODB_URI" ≠ "" ∧ connect_error m = None ∧ ping_error m = None.

(** * Properties *)

(** ** The binder *)

Lemma H_error (msg : string) :
  H [("error", msg)] = JObject [("error", JString msg)].
Proof. reflexivity. Qed.

Lemma H_created (id : string) :
  H [("message", "Student added successfully!"); ("insertedID", id)] =
  JObject [("insertedID", JString id);
           ("message", JString "Student added successfully!")].
Proof. vm_compute. reflexivity. Qed.

Lemma store_field_error (f : field) (v : json) (s : Student) :
  (store_field f v s).2 =
  if mismatch f v
  then Some (UnmarshalTypeError
               match v, f with
               | JNumber lit, FAge => "number " ++ lit
               | _, _ => describe v
               end (Some f))
  else None.
Proof.
  destruct v, f; simpl; try reflexivity.
  destruct (ParseInt lit); reflexivity.
Qed.

Lemma decode_member_error (acc : Student * option bind_error) (m : string * json) :
  (decode_member acc m).2 = None ↔ acc.2 = None ∧ member_ok m = true.
Proof.
  unfold decode_member, member_ok.
  destruct (find_field m.1) as [f|]; [|naive_solver].
  pose proof (store_field_error f m.2 acc.1) as Hs.
  destruct (store_field f m.2 acc.1) as [s e]; simpl in *; subst e.
  destruct acc as [s0 [e0|]]; simpl; destruct (mismatch f m.2); naive_solver.
Qed.

Lemma fold_decode_error (members : list (string * json)) :
  ∀ acc, (fold_left decode_member members acc).2 = None ↔
         acc.2 = None ∧ forallb member_ok members = true.
Proof.
  induction members as [|m members IH]; intros acc; simpl.
  - naive_solver.
  - rewrite IH, decode_member_error, andb_true_iff. naive_solver.
Qed.

Lemma bind_refused (b : request_body) :
  refused b = true → ∃ err, ShouldBindJSON b = Err err.
Proof.
  destruct b as [msg|v]; simpl; [eauto|].
  destruct v; simpl; try discriminate; eauto.
  intros Hbad. pose proof (fold_decode_error members (zero_Student, None)) as Hf.
  destruct (fold_left decode_member members (zero_Student, None)) as [s [e|]];
    simpl in *; [eauto|].
  destruct Hf as [Hf _]. destruct (Hf eq_refl) as [_ Hall].
  rewrite Hall in Hbad. discriminate.
Qed.

Lemma bind_accepted (b : request_body) :
  refused b = false → ∃ s, ShouldBindJSON b = Ok s.
Proof.
  destruct b as [msg|v]; simpl; [discriminate|].
  destruct v; simpl; try discriminate; eauto.
  intros Hok. apply negb_false_iff in Hok.
  pose proof (fold_decode_error members (zero_Student, None)) as Hf.
  destruct (fold_left decode_member members (zero_Student, None)) as [s [e|]];
    simpl in *; [|eauto].
  destruct Hf as [_ Hf]. discriminate (Hf (conj eq_refl Hok)).
Qed.

Lemma age_not_integer_refused (b : request_body) :
  age_not_integer b → refused b = true.
Proof.
  intros (members & k & v & -> & Hin & Hf & Hbad). simpl.
  apply negb_true_iff, not_true_iff_false. intros Hall.
  rewrite forallb_forall in Hall.
  specialize (Hall (k, v)). unfold member_ok in Hall. simpl in Hall.
  rewrite Hf, Hbad in Hall. apply list_elem_of_In in Hin.
  discriminate (Hall Hin).
Qed.

(** ** What the cursor hands back *)

Lemma All_appends (docs acc : list (gmap string bvalue)) :
  fold_left append docs (SliceOf acc) = SliceOf (acc ++ docs).
Proof.
  revert acc. induction docs as [|d docs IH]; intros acc; simpl.
  - by rewrite app_nil_r.
  - by rewrite IH, <- app_assoc.
Qed.

Lemma All_from_nil (docs : list (gmap string bvalue)) :
  fold_left append docs SliceNil =
  match docs with [] => SliceNil | _ :: _ => SliceOf docs end.
Proof. destruct docs as [|d docs]; simpl; [done|]. apply (All_appends docs [d]). Qed.

(** ** The handlers in closed form *)

Lemma get_students_world (e : driver_env) (w : world) :
  (get_students e w).2 =
  {| collection := collection w;
     written := written w ++
       [if find_fails e
        then mkResponse 500 (JObject [("error", JString "Failed to fetch documents")])
        else if all_fails e
        then mkResponse 500 (JObject [("error", JString "Failed to decode documents")])
        else mkResponse 200 (encode_results (fold_left append (collection w) SliceNil))];
     calls := calls w ++
       (if find_fails e then [CallFind 10] else [CallFind 10; CallAll; CallClose]) |}.
Proof.
  unfold get_students, Find, All, Close, record_call, c_JSON, mbind, mret,
    Handler_bind, Handler_ret.
  destruct w as [docs out cs]; simpl.
  destruct (find_fails e); simpl; [done|].
  destruct (all_fails e); simpl; by rewrite <- !app_assoc.
Qed.

Lemma post_students_refused_world (e : driver_env) (b : request_body) (w : world)
    (err : bind_error) :
  ShouldBindJSON b = Err err →
  (post_students e b w).2 =
  {| collection := collection w;
     written := written w ++ [mkResponse 400 (JObject [("error", JString (Error err))])];
     calls := calls w |}.
Proof. unfold post_students. intros ->. reflexivity. Qed.

Lemma post_students_bound_world (e : driver_env) (b : request_body) (w : world)
    (s : Student) :
  ShouldBindJSON b = Ok s →
  (post_students e b w).2 =
  {| collection := collection w ++
       match insert_ends e with
       | Inserted id | InsertFailed (Some id) => [with_id id (marshal_Student s)]
       | InsertFailed None => []
       end;
     written := written w ++
       [match insert_ends e with
        | Inserted id =>
            mkResponse 201
              (JObject [("insertedID", JString id);
                        ("message", JString "Student added successfully!")])
        | InsertFailed _ =>
            mkResponse 500 (JObject [("error", JString "Failed to insert document")])
        end];
     calls := calls w ++ [CallInsertOne 5 s] |}.
Proof.
  unfold post_students. intros ->.
  unfold InsertOne, record_call, store, c_JSON, mbind, mret, Handler_bind,
    Handler_ret.
  destruct w as [docs out cs]; simpl.
  destruct (insert_ends e) as [id|[id|]]; simpl;
    rewrite ?H_created, ?app_nil_r; reflexivity.
Qed.

(** ** POST /students *)




(** C1, as the code has it.  A body whose [age] is not an integer is
    answered 400 with the text of the error the binder returned, without a
    driver call and with nothing inserted.  A body is answered so exactly
    when the binder refuses it, which depends on the members that are
    present only.  A body that leaves out [name] or [age] and is not
    refused binds with the zero value in that field, and the student is
    handed to InsertOne; when the insert succeeds it is stored and the
    answer is 201. *)
Lemma refused_answered_400 (e : driver_env) (b : request_body) (w : world) :
  refused b = true → answered_400 e b w.
Proof.
  intros [err Herr]%bind_refused. unfold answered_400.
  rewrite (post_students_refused_world e b w err Herr). simpl. eauto.
Qed.



(** The texts the binder gives for a number: the literal is quoted only
    when the number was meant for the [int] field. *)
Example binder_texts_for_numbers :
  ShouldBindJSON (Parsed (JObject [("name", JNumber "5"); ("age", JString "x")])) =
    Err (UnmarshalTypeError "number" (Some FName)) ∧
  Error (UnmarshalTypeError "number" (Some FName)) =
    "json: cannot unmarshal number into Go struct field Student.name of type string" ∧
  ShouldBindJSON (Parsed (JObject [("age", JNumber "1.5")])) =
    Err (UnmarshalTypeError "number 1.5" (Some FAge)) ∧
  Error (UnmarshalTypeError "number 1.5" (Some FAge)) =
    "json: cannot unmarshal number 1.5 into Go struct field Student.age of type int" ∧
  ShouldBindJSON (Parsed (JNumber "7")) = Err (UnmarshalTypeError "number" None) ∧
  Error (UnmarshalTypeError "number" None) =
    "json: cannot unmarshal number into Go value of type main.Student".
Proof. repeat split. Qed.


(** C6: a request that binds is answered 201 with the message and the new
    identifier when the insert succeeds, and 500 when it fails. *)
Theorem post_students_bound_response (e : driver_env) (b : request_body)
    (w : world) (newStudent : Student) :
  ShouldBindJSON b = Ok newStudent →
  written (post_students e b w).2 =
  (written w ++
    [match insert_ends e with
     | Inserted id =>
         mkResponse 201
           (JObject [("insertedID", JString id);
                     ("message", JString "Student added successfully!")])
     | InsertFailed _ =>
         mkResponse 500 (JObject [("error", JString "Failed to insert document")])
     end])%list.
Proof. intros Hb. by rewrite (post_students_bound_world e b w newStudent Hb). Qed.

Lemma post_students_bound_response_witness :
  ShouldBindJSON (Parsed (JObject [("name", JString "Ada"); ("age", JNumber "30")]))
    = Ok {| Name := "Ada"; Age := 30 |} ∧
  written (post_students healthy
             (Parsed (JObject [("name", JString "Ada"); ("age", JNumber "30")]))
             some_world).2 =
  [mkResponse 201
     (JObject [("insertedID", JString "6541f0c2a1b2c3d4e5f60718");
               ("message", JString "Student added successfully!")])].
Proof.
  split; [reflexivity|].
  apply (post_students_bound_response healthy _ some_world {| Name := "Ada"; Age := 30 |}).
  reflexivity.
Defined.

(** ** GET /students *)

(** C2, as the code has it: on an empty collection, with the query and the
    cursor both succeeding, [results] is still the nil slice it was declared
    as, and the answer is 200 with the body [null], not an empty array. *)
Theorem get_students_empty_collection (e : driver_env) (w : world) :
  collection w = [] → find_fails e = false → all_fails e = false →
  written (get_students e w).2 = (written w ++ [mkResponse 200 JNull])%list ∧
  JNull ≠ JArray [].
Proof.
  intros Hempty Hfind Hall. split; [|discriminate].
  rewrite get_students_world. simpl. by rewrite Hempty, Hfind, Hall.
Qed.

Lemma get_students_empty_collection_witness :
  written (get_students healthy some_world).2 = [mkResponse 200 JNull] ∧
  JNull ≠ JArray [].
Proof.
  apply (get_students_empty_collection healthy some_world); reflexivity.
Defined.

(** The members of an encoded document are the fields of the document,
    each with its value encoded: nothing is added, dropped or renamed. *)
Lemma encode_M_members (doc : gmap string bvalue) (k : string) (j : json) :
  (∃ members, encode_M doc = JObject members ∧
     ((k, j) ∈ members ↔ encode_bvalue <$> doc !! k = Some j)).
Proof.
  eexists. split; [reflexivity|].
  rewrite merge_sort_Permutation, elem_of_map_to_list, lookup_fmap. done.
Qed.

(** C7, as the code has it: 500 with the fetch message when the query
    fails, 500 with the decode message when materialising the cursor fails,
    otherwise 200 with the array of all documents of the collection, in
    order, each encoded as it is stored; except that for an empty
    collection the body is [null].  The collection is left as it was. *)
Theorem get_students_response (e : driver_env) (w : world) :
  written (get_students e w).2 =
  (written w ++
    [if find_fails e
     then mkResponse 500 (JObject [("error", JString "Failed to fetch documents")])
     else if all_fails e
     then mkResponse 500 (JObject [("error", JString "Failed to decode documents")])
     else mkResponse 200
            match collection w with
            | [] => JNull
            | _ :: _ => JArray (encode_M <$> collection w)
            end])%list ∧
  collection (get_students e w).2 = collection w.
Proof.
  rewrite get_students_world. simpl. split; [|done].
  rewrite All_from_nil. by destruct (collection w).
Qed.

Example get_students_lists_documents :
  written (get_students healthy
    {| collection :=
         [{[ "_id" := BObjectID "6541f0c2a1b2c3d4e5f60718";
             "name" := BString "Ada"; "age" := BInt 30 ]};
          {[ "_id" := BObjectID "6541f0c2a1b2c3d4e5f60719";
             "name" := BString "Grace"; "age" := BInt (-1);
             "nickname" := BString "amazing"; "enrolled" := BBool true ]}];
       written := []; calls := [] |}).2 =
  [mkResponse 200
     (JArray
        [JObject [("_id", JString "6541f0c2a1b2c3d4e5f60718");
                  ("age", JNumber "30"); ("name", JString "Ada")];
         JObject [("_id", JString "6541f0c2a1b2c3d4e5f60719");
                  ("age", JNumber "-1"); ("enrolled", JBool true);
                  ("name", JString "Grace"); ("nickname", JString "amazing")]])].
Proof. vm_compute. reflexivity. Qed.

(** ** Every invocation answers once *)


(** ** Shape of the stored documents *)

Lemma inserted_document_well_shaped (id : ObjectID) (s : Student) :
  well_shaped (with_id id (marshal_Student s)).
Proof.
  unfold well_shaped, with_id, marshal_Student, student_fields.
  rewrite !dom_insert_L, dom_singleton_L. set_solver.
Qed.

Lemma get_students_keeps_collection (e : driver_env) (w : world) :
  collection (get_students e w).2 = collection w.
Proof. by rewrite get_students_world. Qed.

Lemma post_students_keeps_shape (e : driver_env) (b : request_body) (w : world) :
  Forall well_shaped (collection w) →
  Forall well_shaped (collection (post_students e b w).2).
Proof.
  intros Hw. destruct (refused b) eqn:Hb.
  - destruct (bind_refused b Hb) as [err Herr].
    by rewrite (post_students_refused_world e b w err Herr).
  - destruct (bind_accepted b Hb) as [s Hs].
    rewrite (post_students_bound_world e b w s Hs). simpl.
    apply Forall_app. split; [done|].
    destruct (insert_ends e) as [id|[id|]];
      repeat constructor; apply inserted_document_well_shaped.
Qed.

(** C8: every route either program registers keeps the collection made of
    documents with exactly the fields [_id], [name] and [age]: the list
    route stores nothing and the create route stores the bound struct only,
    so members of the body other than the two fields never reach the
    collection. *)
Theorem stored_documents_well_shaped (r : Engine) (rt : route)
    (e : driver_env) (b : request_body) (w : world) :
  r = MainGo.router ∨ r = Part000.router →
  rt ∈ routes r →
  Forall well_shaped (collection w) →
  Forall well_shaped (collection (handler rt e b w).2).
Proof.
  intros Hr Hrt Hw.
  assert (Hcases : rt = mkRoute "GET" "/students" (λ e _, get_students e) ∨
                   rt = mkRoute "POST" "/students" post_students).
  { destruct Hr as [-> | ->]; simpl in Hrt; set_solver. }
  destruct Hcases as [-> | ->]; simpl.
  - by rewrite get_students_keeps_collection.
  - by apply post_students_keeps_shape.
Qed.

Lemma stored_documents_well_shaped_witness :
  let b := Parsed (JObject [("name", JString "Ada"); ("age", JNumber "30");
                            ("admin", JBool true); ("_id", JString "mine")]) in
  let w' := (post_students healthy b some_world).2 in
  length (collection w') = 1%nat ∧ Forall well_shaped (collection w').
Proof.
  split; [reflexivity|].
  apply (stored_documents_well_shaped MainGo.router
           (mkRoute "POST" "/students" post_students) healthy _ some_world).
  - left. reflexivity.
  - right. left.
  - constructor.
Defined.

(** ** Process start *)

Lemma connect_database_run (m : machine) (p : process) :
  connect_database m p =
  let uri := default "" (env p !! "MONGODB_URI") in
  let fatal line :=
    (None, {| env := env p; trace := trace p ++ line |}) in
  if decide (uri = "")
  then fatal [Log "You must set MONGODB_URI environment variable"; Exit 1]
  else match connect_error m with
       | Some err => fatal [Log ("MongoDB connection error:" ++ err); Exit 1]
       | None =>
           match ping_error m with
           | Some err =>
               fatal [Connected uri; Pinged 15;
                      Log ("MongoDB ping failed:" ++ err); Exit 1]
           | None =>
               (Some (),
                {| env := env p;
                   trace := trace p ++
                     [Connected uri; Pinged 15;
                      Stdout "Pinged your deployment. You successfully connected to MongoDB!"] |})
           end
       end.
Proof.
  unfold connect_database, mongo_Connect, client_Ping, os_Getenv, fmt_Println,
    log_Fatal, emit, mbind, mret, Startup_bind, Startup_ret.
  destruct p as [vars tr]; simpl.
  destruct (decide (default "" (vars !! "MONGODB_URI") = "")); simpl; [done|].
  destruct (connect_error m); simpl; [done|].
  destruct (ping_error m); simpl; by rewrite <- !app_assoc.
Qed.

Ltac run_startup :=
  unfold execute, mbind, Startup_bind; simpl;
  rewrite ?connect_database_run; simpl.

Lemma MainGo_run (m : machine) :
  MainGo.run m =
  match dotenv_file m with
  | None => [Log "Error loading .env file"; Exit 1]
  | Some _ =>
      Stdout ("Main package -> PORT: " ++ resolved m "PORT") ::
      if decide (resolved m "MONGODB_URI" = "")
      then [Log "You must set MONGODB_URI environment variable"; Exit 1]
      else match connect_error m, ping_error m with
           | Some err, _ => [Log ("MongoDB connection error:" ++ err); Exit 1]
           | None, Some err =>
               [Connected (resolved m "MONGODB_URI"); Pinged 15;
                Log ("MongoDB ping failed:" ++ err); Exit 1]
           | None, None =>
               [Connected (resolved m "MONGODB_URI"); Pinged 15;
                Stdout "Pinged your deployment. You successfully connected to MongoDB!";
                served_or_exit m MainGo.router ":8080"]
           end
  end.
Proof.
  unfold MainGo.run, MainGo.main, resolved, start, godotenv_Load, served_or_exit.
  destruct (dotenv_file m) as [vars|]; run_startup; [|done].
  destruct (decide _); simpl; [done|].
  destruct (connect_error m); simpl; [done|].
  destruct (ping_error m); simpl; [done|].
  unfold Run. by destruct (net_Listen m ":8080").
Qed.

Lemma Part000_run (m : machine) :
  Part000.run m =
  (match dotenv_file m with
   | None => [Log "No .env file found, using Render environment variables"]
   | Some _ => []
   end ++
   Stdout ("Main package -> PORT: " ++ resolved m "PORT") ::
   if decide (resolved m "MONGODB_URI" = "")
   then [Log "You must set MONGODB_URI environment variable"; Exit 1]
   else match connect_error m, ping_error m with
        | Some err, _ => [Log ("MongoDB connection error:" ++ err); Exit 1]
        | None, Some err =>
            [Connected (resolved m "MONGODB_URI"); Pinged 15;
             Log ("MongoDB ping failed:" ++ err); Exit 1]
        | None, None =>
            [Connected (resolved m "MONGODB_URI"); Pinged 15;
             Stdout "Pinged your deployment. You successfully connected to MongoDB!";
             served_or_exit m Part000.router (chosen_address m)]
        end)%list.
Proof.
  unfold Part000.run, Part000.main, resolved, start, godotenv_Load,
    served_or_exit, chosen_address, resolved.
  destruct (dotenv_file m) as [vars|]; run_startup;
    rewrite ?(right_id_L ∅ (∪));
    (destruct (decide (default "" (_ !! "MONGODB_URI") = "")); simpl; [done|]);
    (destruct (connect_error m); simpl; [done|]);
    (destruct (ping_error m); simpl; [done|]);
    unfold Run;
    match goal with |- context [net_Listen m ?a] => by destruct (net_Listen m a) end.
Qed.

(** C3 as stated fails for src/main.go: without a .env file the process
    logs the failure and exits with status 1 before it looks at
    MONGODB_URI, although the environment has all it needs. *)
Lemma MainGo_missing_dotenv_fatal :
  dotenv_file render_machine = None ∧
  resolved render_machine "MONGODB_URI" ≠ "" ∧
  MainGo.run render_machine = [Log "Error loading .env file"; Exit 1].
Proof. split; [done|]. split; [by vm_compute|]. by rewrite MainGo_run. Qed.

(** C3, as the code has it: in src/unnamed/part_000 a .env file that cannot
    be loaded costs one log line, after which start-up goes on as it would
    with an empty file; in src/main.go it ends the process. *)
Theorem dotenv_failure (m : machine) :
  dotenv_file m = None →
  Part000.run m =
    Log "No .env file found, using Render environment variables" ::
    Part000.run {| dotenv_file := Some ∅; environ := environ m;
                   connect_error := connect_error m;
                   ping_error := ping_error m;
                   listen_error := listen_error m |} ∧
  MainGo.run m = [Log "Error loading .env file"; Exit 1].
Proof.
  intros Hnone. rewrite !Part000_run, MainGo_run.
  unfold served_or_exit, chosen_address, net_Listen, resolved. simpl.
  by rewrite Hnone.
Qed.

Lemma dotenv_failure_witness :
  dotenv_file render_machine = None ∧
  Part000.run render_machine =
    [Log "No .env file found, using Render environment variables";
     Stdout "Main package -> PORT: 10000";
     Connected "mongodb+srv://cluster0.example.net";
     Pinged 15;
     Stdout "Pinged your deployment. You successfully connected to MongoDB!";
     Listen Part000.router ":10000"] ∧
  MainGo.run render_machine = [Log "Error loading .env file"; Exit 1].
Proof.
  split; [reflexivity|].
  destruct (dotenv_failure render_machine eq_refl) as [Hpart Hmain].
  split; [|exact Hmain].
  rewrite Hpart. rewrite Part000_run. reflexivity.
Defined.

(** C4 as stated fails for src/main.go: with PORT set to 9000 it listens
    on 8080. *)
Lemma MainGo_ignores_PORT :
  resolved local_machine "PORT" = "9000" ∧
  last (MainGo.run local_machine) = Some (Listen MainGo.router ":8080").
Proof. split; [by vm_compute|]. rewrite MainGo_run. reflexivity. Qed.

Lemma port_out_of_range (m : machine) (port : string) (n : Z) :
  parse_digits 0 port = Some n → 65535 < n →
  is_Some (net_Listen m (":" ++ port)).
Proof.
  intros Hn Hrange.
  destruct port as [|c rest]; [simpl in Hn; injection Hn as <-; lia|].
  change (":" ++ String c rest) with (String ":" (String c rest)).
  unfold net_Listen. cbv beta iota. rewrite Hn. destruct (n <=? 65535) eqn:Hle; [apply Z.leb_le in Hle; lia|].
  by eexists.
Qed.

(** C4, as the code has it: once the database has answered,
    src/unnamed/part_000 asks for a listener on the port PORT names, and on
    8080 when PORT is unset or empty; src/main.go asks for 8080 whatever
    PORT is.  The run then ends on that listener if it can be opened, and
    otherwise, the error of [Run] being dropped, on exit status 0 with no
    listener; a PORT written in digits above 65535 is such a case. *)
Theorem listen_address (m : machine) :
  resolved m "MONGODB_URI" ≠ "" → connect_error m = None → ping_error m = None →
  last (Part000.run m) =
    Some (match net_Listen m (chosen_address m) with
          | None => Listen Part000.router (chosen_address m)
          | Some _ => Exit 0
          end) ∧
  (is_Some (dotenv_file m) →
   last (MainGo.run m) =
     Some (match net_Listen m ":8080" with
           | None => Listen MainGo.router ":8080"
           | Some _ => Exit 0
           end)) ∧
  (∀ n, parse_digits 0 (resolved m "PORT") = Some n → 65535 < n →
        ¬ listens (Part000.run m) ∧ last (Part000.run m) = Some (Exit 0)).
Proof.
  intros Huri Hconnect Hping.
  assert (Hlast : last (Part000.run m) =
                  Some (served_or_exit m Part000.router (chosen_address m))).
  { rewrite Part000_run, Hconnect, Hping.
    destruct (decide (resolved m "MONGODB_URI" = "")); [done|].
    by destruct (dotenv_file m). }
  split; [exact Hlast|]. split.
  - intros [vars Hvars]. rewrite MainGo_run, Hvars, Hconnect, Hping.
    by destruct (decide (resolved m "MONGODB_URI" = "")).
  - intros n Hn Hrange.
    assert (Hport : resolved m "PORT" ≠ "").
    { intros Hempty. rewrite Hempty in Hn. simpl in Hn. injection Hn as <-. lia. }
    destruct (port_out_of_range m (resolved m "PORT") n Hn Hrange) as [err Herr].
    assert (Hserved : served_or_exit m Part000.router (chosen_address m) = Exit 0).
    { unfold served_or_exit, chosen_address. rewrite decide_False by done.
      by rewrite Herr. }
    rewrite Hserved in Hlast. split; [|exact Hlast].
    intros (r & addr & Hin). revert Hin.
    rewrite Part000_run, Hconnect, Hping, Hserved.
    destruct (decide (resolved m "MONGODB_URI" = "")); [done|].
    destruct (dotenv_file m); set_solver.
Qed.

Lemma listen_address_witness :
  last (Part000.run local_machine) = Some (Listen Part000.router ":9000") ∧
  last (MainGo.run local_machine) = Some (Listen MainGo.router ":8080") ∧
  last (Part000.run wrong_port_machine) = Some (Exit 0).
Proof.
  assert (Hlocal : resolved local_machine "MONGODB_URI" ≠ "") by (by vm_compute).
  assert (Hwrong : resolved wrong_port_machine "MONGODB_URI" ≠ "") by (by vm_compute).
  destruct (listen_address local_machine Hlocal eq_refl eq_refl) as (Hp & Hm & _).
  destruct (listen_address wrong_port_machine Hwrong eq_refl eq_refl)
    as (_ & _ & Hrange).
  split; [exact Hp|]. split; [apply Hm; by eexists|].
  apply (Hrange 99999); [reflexivity|reflexivity].
Defined.

(** C5: when MONGODB_URI resolves to nothing, or connecting fails, or the
    ping (given 15 seconds) fails, either program ends on a log line
    followed by exit status 1, and its trace has no listener in it. *)
Theorem unreachable_database_never_listens (m : machine) :
  resolved m "MONGODB_URI" = "" ∨ is_Some (connect_error m) ∨ is_Some (ping_error m) →
  ((∃ before line, MainGo.run m = (before ++ [Log line; Exit 1])%list) ∧
   ¬ listens (MainGo.run m)) ∧
  ((∃ before line, Part000.run m = (before ++ [Log line; Exit 1])%list) ∧
   ¬ listens (Part000.run m)) ∧
  (∀ t, Pinged t ∈ MainGo.run m ∨ Pinged t ∈ Part000.run m → t = 15).
Proof.
  intros Hbad. rewrite Part000_run, MainGo_run. unfold listens.
  destruct (dotenv_file m) as [vars|];
    destruct (decide (resolved m "MONGODB_URI" = "")) as [Huri|Huri];
    destruct (connect_error m) as [cerr|] eqn:Hc;
    destruct (ping_error m) as [perr|] eqn:Hp; simpl;
    try (exfalso; destruct Hbad as [?|[[? ?]|[? ?]]]; done);
    (split; [split; [|set_solver]|split; [split; [|set_solver]|set_solver]]).
  all: first [ by (eexists [], _) | by (eexists [_], _) | by (eexists [_; _], _)
             | by (eexists [_; _; _], _) | by (eexists [_; _; _; _], _)
             | by (eexists [_; _; _; _; _], _) ].
Qed.

Lemma unreachable_database_never_listens_witness :
  Part000.run {| dotenv_file := None;
                 environ := {[ "MONGODB_URI" := "mongodb://db.internal:27017" ]};
                 connect_error := None;
                 ping_error := Some "context deadline exceeded";
                 listen_error := λ _, None |} =
    [Log "No .env file found, using Render environment variables";
     Stdout "Main package -> PORT: ";
     Connected "mongodb://db.internal:27017";
     Pinged 15;
     Log "MongoDB ping failed:context deadline exceeded";
     Exit 1] ∧
  ¬ listens (Part000.run {| dotenv_file := None;
                 environ := {[ "MONGODB_URI" := "mongodb://db.internal:27017" ]};
                 connect_error := None;
                 ping_error := Some "context deadline exceeded";
                 listen_error := λ _, None |}).
Proof.
  split; [rewrite Part000_run; reflexivity|].
  refine (proj2 (proj1 (proj2 (unreachable_database_never_listens _ _)))).
  right. right. by eexists.
Defined.

(** ** The router that is served *)

Lemma MainGo_listens_on_router (m : machine) (r : Engine) (addr : string) :
  Listen r addr ∈ MainGo.run m → r = MainGo.router.
Proof.
  rewrite MainGo_run. unfold served_or_exit.
  destruct (dotenv_file m), (decide (resolved m "MONGODB_URI" = "")),
    (connect_error m), (ping_error m), (net_Listen m ":8080"); set_solver.
Qed.

Lemma Part000_listens_on_router (m : machine) (r : Engine) (addr : string) :
  Listen r addr ∈ Part000.run m → r = Part000.router.
Proof.
  rewrite Part000_run. unfold served_or_exit.
  destruct (dotenv_file m), (decide (resolved m "MONGODB_URI" = "")),
    (connect_error m), (ping_error m), (net_Listen m (chosen_address m));
    set_solver.
Qed.

(** C9: whatever the machine, the engine either program listens with
    carries one cross-origin policy, with a fixed list of origins, the
    methods GET, POST, PUT and DELETE, the headers Origin and Content-Type
    and credentials allowed; and it has no route for PUT or DELETE. *)
Theorem cors_policy_static (m : machine) (r : Engine) (addr : string) :
  Listen r addr ∈ MainGo.run m ∨ Listen r addr ∈ Part000.run m →
  (∃ origins,
     middleware r =
       [{| AllowOrigins := origins;
           AllowMethods := ["GET"; "POST"; "PUT"; "DELETE"];
           AllowHeaders := ["Origin"; "Content-Type"];
           AllowCredentials := true |}] ∧
     (origins = ["http://localhost:5173"] ∨
      origins = ["http://localhost:5173";
                 "https://your-render-service.onrender.com"])) ∧
  (∀ rt, rt ∈ routes r → method rt ≠ "PUT" ∧ method rt ≠ "DELETE") ∧
  (∀ p, lookup_route r "PUT" p = None ∧ lookup_route r "DELETE" p = None).
Proof.
  intros [->%MainGo_listens_on_router | ->%Part000_listens_on_router].
  - split; [eexists; split; [reflexivity|by left]|].
    split; [|done]. simpl. intros rt Hrt.
    assert (method rt = "GET" ∨ method rt = "POST") as [-> | ->]; [set_solver|done..].
  - split; [eexists; split; [reflexivity|by right]|].
    split; [|done]. simpl. intros rt Hrt.
    assert (method rt = "GET" ∨ method rt = "POST") as [-> | ->]; [set_solver|done..].
Qed.

Lemma cors_policy_static_witness :
  Listen Part000.router ":10000" ∈ Part000.run render_machine ∧
  AllowOrigins <$> middleware Part000.router =
    [["http://localhost:5173"; "https://your-render-service.onrender.com"]] ∧
  lookup_route Part000.router "DELETE" "/students" = None.
Proof.
  assert (Hin : Listen Part000.router ":10000" ∈ Part000.run render_machine).
  { rewrite Part000_run. simpl. do 5 right. left. }
  split; [exact Hin|]. split; [reflexivity|].
  exact (proj2 (proj2 (proj2
    (cors_policy_static render_machine Part000.router ":10000" (or_intror Hin)))
    "/students")).
Defined.

(** * Further properties of the handlers *)

Lemma encode_student_document (id name lit : string) :
  encode_map (<["_id" := JString id]>
               (<["name" := JString name]> {["age" := JNumber lit]})) =
  JObject [("_id", JString id); ("age", JNumber lit); ("name", JString name)].
Proof. vm_compute. reflexivity. Qed.

Lemma encode_M_student (id : ObjectID) (s : Student) :
  encode_M (with_id id (marshal_Student s)) =
  JObject [("_id", JString id); ("age", JNumber (pretty (Age s)));
           ("name", JString (Name s))].
Proof.
  unfold encode_M, with_id, marshal_Student.
  rewrite !fmap_insert, map_fmap_singleton. simpl.
  apply (encode_student_document id (Name s) (pretty (Age s))).
Qed.

(** X1: a student that was created is listed.  After a create request that
    binds and whose insert succeeds, a list request that the driver serves
    is answered 200 with the earlier documents followed by the new one,
    which shows its identifier, its age and its name. *)
Theorem created_student_is_listed (e e' : driver_env) (b : request_body)
    (w : world) (s : Student) (id : ObjectID) :
  ShouldBindJSON b = Ok s → insert_ends e = Inserted id →
  find_fails e' = false → all_fails e' = false →
  written (get_students e' (post_students e b w).2).2 =
  (written w ++
     [mkResponse 201
        (JObject [("insertedID", JString id);
                  ("message", JString "Student added successfully!")]);
      mkResponse 200
        (JArray ((encode_M <$> collection w) ++
                 [JObject [("_id", JString id);
                           ("age", JNumber (pretty (Age s)));
                           ("name", JString (Name s))]]))])%list.
Proof.
  intros Hb Hins Hfind Hall.
  rewrite get_students_world, (post_students_bound_world e b w s Hb). simpl.
  rewrite Hins, Hfind, Hall, All_from_nil, <- app_assoc. simpl.
  destruct (collection w ++ [with_id id (marshal_Student s)])%list eqn:Hdocs.
  { by destruct (collection w). }
  rewrite <- Hdocs. unfold encode_results.
  by rewrite fmap_app, <- encode_M_student.
Qed.

Lemma created_student_is_listed_witness :
  written (get_students healthy
             (post_students healthy
                (Parsed (JObject [("name", JString "Ada"); ("age", JNumber "30")]))
                some_world).2).2 =
  [mkResponse 201
     (JObject [("insertedID", JString "6541f0c2a1b2c3d4e5f60718");
               ("message", JString "Student added successfully!")]);
   mkResponse 200
     (JArray [JObject [("_id", JString "6541f0c2a1b2c3d4e5f60718");
                       ("age", JNumber "30"); ("name", JString "Ada")]])].
Proof.
  apply (created_student_is_listed healthy healthy _ some_world
           {| Name := "Ada"; Age := 30 |} "6541f0c2a1b2c3d4e5f60718");
    reflexivity.
Defined.

(** X2: the handlers only ever append.  Whatever route of either program
    serves a request, the documents that were in the collection are still
    there, unchanged and in the same order; at most one document is added
    after them, and only by a POST whose body binds. *)
Theorem handlers_only_append (r : Engine) (rt : route) (e : driver_env)
    (b : request_body) (w : world) :
  r = MainGo.router ∨ r = Part000.router →
  rt ∈ routes r →
  ∃ added, collection (handler rt e b w).2 = (collection w ++ added)%list ∧
           (length added ≤ 1)%nat ∧
           (added ≠ [] → method rt = "POST" ∧ refused b = false).
Proof.
  intros Hr Hrt.
  assert (Hcases : rt = mkRoute "GET" "/students" (λ e _, get_students e) ∨
                   rt = mkRoute "POST" "/students" post_students).
  { destruct Hr as [-> | ->]; simpl in Hrt; set_solver. }
  destruct Hcases as [-> | ->]; simpl.
  - exists []. rewrite get_students_keeps_collection, app_nil_r. simpl.
    split; [done|]. split; [lia|done].
  - destruct (refused b) eqn:Hb.
    + destruct (bind_refused b Hb) as [err Herr]. exists [].
      rewrite (post_students_refused_world e b w err Herr), app_nil_r. simpl.
      split; [done|]. split; [lia|done].
    + destruct (bind_accepted b Hb) as [s Hs].
      rewrite (post_students_bound_world e b w s Hs). simpl.
      eexists. split; [reflexivity|].
      split; [|done]. destruct (insert_ends e) as [id|[id|]]; simpl; lia.
Qed.

Lemma handlers_only_append_witness :
  ∃ added,
    collection (post_students healthy
                  (Parsed (JObject [("name", JString "Ada"); ("age", JNumber "30")]))
                  some_world).2 = (collection some_world ++ added)%list ∧
    (length added ≤ 1)%nat ∧
    (added ≠ [] → "POST" = "POST" ∧
       refused (Parsed (JObject [("name", JString "Ada"); ("age", JNumber "30")]))
         = false).
Proof.
  apply (handlers_only_append Part000.router
           (mkRoute "POST" "/students" post_students) healthy _ some_world).
  - right. reflexivity.
  - right. left.
Defined.

Lemma post_all_cons (req : driver_env * request_body)
    (rest : list (driver_env * request_body)) (w : world) :
  (post_all (req :: rest) w).2 = (post_all rest (post_students req.1 req.2 w).2).2.
Proof.
  simpl. unfold mbind, Handler_bind.
  by destruct (post_students req.1 req.2 w) as [[] w'].
Qed.

(** X3: creates add up.  When each of a series of create requests binds
    and is inserted, the collection ends up as it was followed by one
    document per request, in the order of the requests; equal bodies give
    one document each, nothing is merged or replaced.  Every request got its
    201. *)
Theorem post_all_stores_in_order (reqs : list (driver_env * request_body)) (w : world) :
  Forall (λ req, refused req.2 = false ∧ ∃ id, insert_ends req.1 = Inserted id) reqs →
  ∃ docs, collection (post_all reqs w).2 = (collection w ++ docs)%list ∧
          Forall2 created_as reqs docs ∧
          status <$> written (post_all reqs w).2 =
            ((status <$> written w) ++ replicate (length reqs) 201)%list.
Proof.
  revert w. induction reqs as [|[e b] reqs IH]; intros w Hreqs.
  - exists []. simpl. by rewrite !app_nil_r.
  - apply Forall_cons in Hreqs as [[Hb [id Hid]] Hreqs]. simpl in Hb, Hid.
    destruct (bind_accepted b Hb) as [s Hs].
    destruct (IH (post_students e b w).2 Hreqs) as (docs & Hdocs & Hall & Hst).
    exists (with_id id (marshal_Student s) :: docs).
    rewrite post_all_cons. simpl. rewrite Hdocs, Hst.
    rewrite (post_students_bound_world e b w s Hs), Hid. simpl.
    rewrite fmap_app, <- !app_assoc. simpl.
    split; [done|]. split; [|done].
    constructor; [|done]. by exists s, id.
Qed.

Lemma post_all_stores_in_order_witness :
  let ada := Parsed (JObject [("name", JString "Ada"); ("age", JNumber "30")]) in
  let first := mkDriverEnv false false (Inserted "6541f0c2a1b2c3d4e5f60718") in
  let second := mkDriverEnv false false (Inserted "6541f0c2a1b2c3d4e5f60719") in
  ∃ docs,
    collection (post_all [(first, ada); (second, ada)] some_world).2 =
      (collection some_world ++ docs)%list ∧
    Forall2 created_as [(first, ada); (second, ada)] docs ∧
    status <$> written (post_all [(first, ada); (second, ada)] some_world).2 =
      ((status <$> written some_world) ++ replicate 2 201)%list.
Proof.
  intros ada first second.
  apply (post_all_stores_in_order [(first, ada); (second, ada)] some_world).
  repeat constructor; simpl; by eexists.
Defined.

(** X4: a 201 means the student is stored.  When a create request is
    answered 201, its body did bind, the collection has grown by exactly one
    document, and that document carries the identifier the answer reports
    together with the bound name and age. *)
Theorem created_means_stored (e : driver_env) (b : request_body) (w : world)
    (resp : response) :
  written (post_students e b w).2 = (written w ++ [resp])%list →
  status resp = 201 →
  ∃ s id,
    ShouldBindJSON b = Ok s ∧
    body resp = JObject [("insertedID", JString id);
                         ("message", JString "Student added successfully!")] ∧
    collection (post_students e b w).2 =
      (collection w ++
         [{[ "_id" := BObjectID id; "name" := BString (Name s);
             "age" := BInt (Age s) ]}])%list.
Proof.
  intros Hw Hst. destruct (refused b) eqn:Hb.
  - destruct (bind_refused b Hb) as [err Herr].
    rewrite (post_students_refused_world e b w err Herr) in Hw. simpl in Hw.
    apply app_inv_head in Hw. injection Hw as <-. discriminate.
  - destruct (bind_accepted b Hb) as [s Hs].
    rewrite (post_students_bound_world e b w s Hs) in *. simpl in *.
    apply app_inv_head in Hw. injection Hw as <-.
    destruct (insert_ends e) as [id|st]; [|discriminate].
    by exists s, id.
Qed.

Lemma created_means_stored_witness :
  ∃ s id,
    ShouldBindJSON (Parsed (JObject [("age", JNumber "7"); ("Name", JString "Lin")]))
      = Ok s ∧
    JObject [("insertedID", JString "6541f0c2a1b2c3d4e5f60718");
             ("message", JString "Student added successfully!")] =
    JObject [("insertedID", JString id);
             ("message", JString "Student added successfully!")] ∧
    collection (post_students healthy
                  (Parsed (JObject [("age", JNumber "7"); ("Name", JString "Lin")]))
                  some_world).2 =
      (collection some_world ++
         [{[ "_id" := BObjectID id; "name" := BString (Name s);
             "age" := BInt (Age s) ]}])%list.
Proof.
  apply (created_means_stored healthy
           (Parsed (JObject [("age", JNumber "7"); ("Name", JString "Lin")]))
           some_world
           (mkResponse 201
              (JObject [("insertedID", JString "6541f0c2a1b2c3d4e5f60718");
                        ("message", JString "Student added successfully!")])));
    reflexivity.
Defined.

(** * Further properties of binding *)

Lemma ParseInt_range (lit : string) (n : Z) :
  ParseInt lit = Some n → min_int64 ≤ n ≤ max_int64.
Proof.
  unfold ParseInt.
  match goal with |- context [let '(_, _) := ?p in _] => destruct p as [neg digits] end.
  destruct digits as [|c rest]; [done|].
  destruct (parse_digits 0 (String c rest)) as [k|]; [|done].
  destruct ((min_int64 <=? (if neg then - k else k)) &&
            ((if neg then - k else k) <=? max_int64)) eqn:Hrange; [|done].
  intros [= <-]. apply andb_true_iff in Hrange as [?%Z.leb_le ?%Z.leb_le]. done.
Qed.

Lemma store_field_range (f : field) (v : json) (s : Student) :
  min_int64 ≤ Age s ≤ max_int64 →
  min_int64 ≤ Age (store_field f v s).1 ≤ max_int64.
Proof.
  intros Hs. destruct v, f; simpl; try done.
  destruct (ParseInt lit) as [n|] eqn:Hn; simpl; [|done].
  by apply (ParseInt_range lit).
Qed.

Lemma decode_member_range (acc : Student * option bind_error) (m : string * json) :
  min_int64 ≤ Age acc.1 ≤ max_int64 →
  min_int64 ≤ Age (decode_member acc m).1 ≤ max_int64.
Proof.
  intros Hacc. unfold decode_member. destruct (find_field m.1) as [f|]; [|done].
  pose proof (store_field_range f m.2 acc.1 Hacc).
  by destruct (store_field f m.2 acc.1).
Qed.

Lemma fold_decode_range (members : list (string * json)) :
  ∀ acc, min_int64 ≤ Age acc.1 ≤ max_int64 →
         min_int64 ≤ Age (fold_left decode_member members acc).1 ≤ max_int64.
Proof.
  induction members as [|m members IH]; intros acc Hacc; simpl; [done|].
  by apply IH, decode_member_range.
Qed.

Lemma bind_range (b : request_body) (s : Student) :
  ShouldBindJSON b = Ok s → min_int64 ≤ Age s ≤ max_int64.
Proof.
  destruct b as [msg|v]; simpl; [done|].
  assert (Hv : min_int64 ≤ Age (Unmarshal v).1 ≤ max_int64).
  { destruct v; simpl; try done. by apply fold_decode_range. }
  destruct (Unmarshal v) as [s' [e|]]; [done|]. by intros [= <-].
Qed.

Lemma fold_decode_known (members : list (string * json)) :
  ∀ acc, fold_left decode_member members acc =
         fold_left decode_member
           (filter (λ m, is_Some (find_field m.1)) members) acc.
Proof.
  induction members as [|m members IH]; intros acc; [done|].
  rewrite filter_cons. simpl. case_decide as Hm; simpl; [apply IH|].
  rewrite IH. unfold decode_member at 2.
  destruct (find_field m.1) eqn:Hf; [|done]. destruct Hm. by eexists.
Qed.

(** X6: members the struct does not declare are dropped before anything
    else happens.  A create request is served the same way (same answer,
    same driver call, same stored document) as the request left after
    removing from its body every member whose key selects neither [name]
    nor [age]. *)
Theorem unknown_members_ignored (e : driver_env) (members : list (string * json))
    (w : world) :
  post_students e (Parsed (JObject members)) w =
  post_students e
    (Parsed (JObject (filter (λ m, is_Some (find_field m.1)) members))) w.
Proof.
  unfold post_students, ShouldBindJSON, Unmarshal.
  by rewrite <- fold_decode_known.
Qed.

(** X7: an empty student is accepted.  A body that is [null], or an object
    no member of which selects a field (the empty object included), binds
    to the zero Student; with a successful insert the answer is 201 and the
    document stored has the empty name and age 0. *)
Theorem empty_student_is_stored (e : driver_env) (b : request_body) (w : world)
    (id : ObjectID) :
  (b = Parsed JNull ∨
   ∃ members, b = Parsed (JObject members) ∧
              Forall (λ m, find_field m.1 = None) members) →
  insert_ends e = Inserted id →
  ShouldBindJSON b = Ok {| Name := ""; Age := 0 |} ∧
  status <$> written (post_students e b w).2 = ((status <$> written w) ++ [201])%list ∧
  collection (post_students e b w).2 =
    (collection w ++
       [{[ "_id" := BObjectID id; "name" := BString ""; "age" := BInt 0 ]}])%list.
Proof.
  intros Hb Hid.
  assert (Hbind : ShouldBindJSON b = Ok zero_Student).
  { destruct Hb as [-> | (members & -> & Hnone)]; [done|].
    unfold ShouldBindJSON, Unmarshal. rewrite fold_decode_known.
    replace (filter _ members) with (@nil (string * json)); [done|].
    symmetry. induction Hnone as [|m members Hm _ IH]; [done|].
    rewrite filter_cons. case_decide as Hsome; [|done].
    rewrite Hm in Hsome. by destruct Hsome. }
  split; [done|].
  rewrite (post_students_bound_world e b w zero_Student Hbind), Hid. simpl.
  by rewrite fmap_app.
Qed.

Lemma empty_student_is_stored_witness :
  ShouldBindJSON (Parsed (JObject [("email", JString "ada@example.org")]))
    = Ok {| Name := ""; Age := 0 |} ∧
  status <$> written (post_students healthy
      (Parsed (JObject [("email", JString "ada@example.org")])) some_world).2 =
    ((status <$> written some_world) ++ [201])%list ∧
  collection (post_students healthy
      (Parsed (JObject [("email", JString "ada@example.org")])) some_world).2 =
    (collection some_world ++
       [{[ "_id" := BObjectID "6541f0c2a1b2c3d4e5f60718";
           "name" := BString ""; "age" := BInt 0 ]}])%list.
Proof.
  apply (empty_student_is_stored healthy
           (Parsed (JObject [("email", JString "ada@example.org")])) some_world).
  - right. eexists. split; [reflexivity|]. repeat constructor.
  - reflexivity.
Defined.

(** ** From the listed document back to the student *)

Lemma digit_of_pretty_N_char (d : N) :
  (d < 10)%N → digit_of (pretty_N_char d) = Some (Z.of_N d).
Proof.
  intros Hd.
  assert (d = 0 ∨ d = 1 ∨ d = 2 ∨ d = 3 ∨ d = 4 ∨ d = 5 ∨ d = 6 ∨ d = 7 ∨
          d = 8 ∨ d = 9)%N as Hcases by lia.
  repeat (destruct Hcases as [-> | Hcases]; [reflexivity|]). by subst.
Qed.

Lemma parse_digits_pretty_N_go (x : N) :
  ∀ s, parse_digits 0 (pretty_N_go x s) = parse_digits (Z.of_N x) s.
Proof.
  induction (N.lt_wf_0 x) as [x _ IH]; intros s.
  destruct (decide (x = 0%N)) as [-> | Hx]; [by rewrite pretty_N_go_0|].
  rewrite pretty_N_go_step by lia.
  rewrite IH by (apply N.div_lt; lia). simpl.
  rewrite digit_of_pretty_N_char by (apply N.mod_lt; lia).
  f_equal. change 10 with (Z.of_N 10).
  rewrite <- N2Z.inj_mul, <- N2Z.inj_add, N.mul_comm.
  f_equal. symmetry. by apply N.div_mod.
Qed.

Lemma pretty_N_go_head (x : N) :
  ∀ s, (0 < x)%N →
       ∃ c rest, pretty_N_go x s = String c rest ∧ is_Some (digit_of c).
Proof.
  induction (N.lt_wf_0 x) as [x _ IH]; intros s Hx.
  rewrite pretty_N_go_step by done.
  destruct (decide (x `div` 10 = 0)%N) as [-> | Hdiv].
  - rewrite pretty_N_go_0. eexists _, _. split; [reflexivity|].
    rewrite digit_of_pretty_N_char by (apply N.mod_lt; lia). by eexists.
  - apply IH; [by apply N.div_lt|by apply N.neq_0_lt_0].
Qed.

Lemma ParseInt_unsigned (c : ascii) (rest : string) :
  is_Some (digit_of c) →
  ParseInt (String c rest) =
  match parse_digits 0 (String c rest) with
  | Some n => if (min_int64 <=? n) && (n <=? max_int64) then Some n else None
  | None => None
  end.
Proof.
  intros [d Hd].
  destruct c as [[] [] [] [] [] [] [] []]; try reflexivity; vm_compute in Hd;
    discriminate.
Qed.

Lemma ParseInt_negative (digits : string) :
  digits ≠ "" →
  ParseInt (String "-" digits) =
  match parse_digits 0 digits with
  | Some n => if (min_int64 <=? - n) && (- n <=? max_int64) then Some (- n) else None
  | None => None
  end.
Proof. by destruct digits. Qed.

Lemma ParseInt_pretty_any (n : Z) :
  ParseInt (pretty n) =
  if (min_int64 <=? n) && (n <=? max_int64) then Some n else None.
Proof.
  destruct n as [|p|p]; [done|..].
  - unfold pretty, pretty_Z, pretty, pretty_positive, pretty, pretty_N.
    rewrite decide_False by done.
    destruct (pretty_N_go_head (N.pos p) "") as (c & rest & Hshape & Hc); [lia|].
    rewrite Hshape, (ParseInt_unsigned c rest Hc), <- Hshape.
    rewrite parse_digits_pretty_N_go.
    by change (parse_digits (Z.of_N (N.pos p)) "") with (Some (Z.pos p)).
  - unfold pretty, pretty_Z, pretty, pretty_positive, pretty, pretty_N.
    rewrite decide_False by done.
    destruct (pretty_N_go_head (N.pos p) "") as (c & rest & Hshape & Hc); [lia|].
    change ("-" +:+ pretty_N_go (N.pos p) "")
      with (String "-" (pretty_N_go (N.pos p) "")).
    rewrite ParseInt_negative by (by rewrite Hshape).
    rewrite parse_digits_pretty_N_go.
    by change (parse_digits (Z.of_N (N.pos p)) "") with (Some (Z.pos p)).
Qed.

Lemma ParseInt_pretty (n : Z) :
  min_int64 ≤ n ≤ max_int64 → ParseInt (pretty n) = Some n.
Proof.
  intros [Hmin%Z.leb_le Hmax%Z.leb_le].
  by rewrite ParseInt_pretty_any, Hmin, Hmax.
Qed.

Lemma ParseInt_pretty_out_of_range (n : Z) :
  ¬ (min_int64 ≤ n ≤ max_int64) → ParseInt (pretty n) = None.
Proof.
  intros Hout. rewrite ParseInt_pretty_any.
  destruct ((min_int64 <=? n) && (n <=? max_int64)) eqn:Hin; [|done].
  apply andb_true_iff in Hin as [?%Z.leb_le ?%Z.leb_le]. by destruct Hout.
Qed.

(** X5: the age that reaches the database is the number that was sent, and
    it fits an [int].  Every bound [Age] lies between -2^63 and 2^63 - 1.
    A create body with an [age] member that is the decimal numeral of a
    number outside that range is answered 400 and nothing is stored: the
    number is neither wrapped around nor clamped.  The numeral of a number
    inside the range binds to exactly that number. *)
Theorem bound_age_fits_int :
  (∀ b s, ShouldBindJSON b = Ok s → - 2 ^ 63 ≤ Age s ≤ 2 ^ 63 - 1) ∧
  (∀ e w members k n,
     (k, JNumber (pretty n)) ∈ members → find_field k = Some FAge →
     ¬ (- 2 ^ 63 ≤ n ≤ 2 ^ 63 - 1) →
     answered_400 e (Parsed (JObject members)) w) ∧
  (∀ name n,
     - 2 ^ 63 ≤ n ≤ 2 ^ 63 - 1 →
     ShouldBindJSON
       (Parsed (JObject [("name", JString name); ("age", JNumber (pretty n))])) =
     Ok {| Name := name; Age := n |}).
Proof.
  split; [apply bind_range|]. split.
  - intros e w members k n Hin Hk Hout.
    apply refused_answered_400, age_not_integer_refused.
    exists members, k, (JNumber (pretty n)).
    repeat (split; [done|]). simpl.
    by rewrite (ParseInt_pretty_out_of_range n Hout).
  - intros name n Hrange.
    assert (Hdec : decode_member ({| Name := name; Age := 0 |}, None)
                     ("age", JNumber (pretty n)) =
                   ({| Name := name; Age := n |}, None)).
    { unfold decode_member. simpl. by rewrite (ParseInt_pretty n Hrange). }
    unfold ShouldBindJSON, Unmarshal. simpl.
    change (decode_member (zero_Student, None) ("name", JString name))
      with ({| Name := name; Age := 0 |}, @None bind_error).
    by rewrite Hdec.
Qed.

Lemma bound_age_fits_int_witness :
  answered_400 healthy
    (Parsed (JObject [("name", JString "Ada");
                      ("age", JNumber "9223372036854775808")])) some_world ∧
  ShouldBindJSON
    (Parsed (JObject [("name", JString "Ada");
                      ("age", JNumber "9223372036854775807")])) =
  Ok {| Name := "Ada"; Age := 9223372036854775807 |}.
Proof.
  destruct bound_age_fits_int as (_ & Hout & Hin). split.
  - apply (Hout healthy some_world _ "age" (2 ^ 63)).
    + right. left.
    + reflexivity.
    + simpl. lia.
  - apply (Hin "Ada" (2 ^ 63 - 1)). simpl. lia.
Defined.

(** X8: what the list shows can be sent back.  For a student whose age is a
    valid [int], the object the list endpoint writes for its stored document
    (identifier included) binds, as a create body, to that same student: the
    identifier is skipped, the name is taken as it is, and the age printed in
    decimal is read back to the same number. *)
Theorem listed_student_binds_back (id : ObjectID) (s : Student) :
  - 2 ^ 63 ≤ Age s ≤ 2 ^ 63 - 1 →
  ShouldBindJSON (Parsed (encode_M (with_id id (marshal_Student s)))) = Ok s.
Proof.
  intros Hage. rewrite encode_M_student.
  assert (Hid : decode_member (zero_Student, None) ("_id", JString id) =
                (zero_Student, None)) by reflexivity.
  assert (Hdec : decode_member (zero_Student, None)
                   ("age", JNumber (pretty (Age s))) =
                 ({| Name := ""; Age := Age s |}, None)).
  { unfold decode_member. simpl. by rewrite (ParseInt_pretty (Age s) Hage). }
  unfold ShouldBindJSON, Unmarshal. simpl. rewrite Hid, Hdec. simpl.
  by destruct s.
Qed.

Lemma listed_student_binds_back_witness :
  ShouldBindJSON
    (Parsed (JObject [("_id", JString "6541f0c2a1b2c3d4e5f60718");
                      ("age", JNumber "-42"); ("name", JString "Grace")])) =
  Ok {| Name := "Grace"; Age := -42 |}.
Proof.
  apply (listed_student_binds_back "6541f0c2a1b2c3d4e5f60718"
           {| Name := "Grace"; Age := -42 |}).
  simpl. lia.
Defined.

(** * Further properties of process start *)

(** X9: the listener is opened exactly when the database answered and the
    address can be listened on.  src/unnamed/part_000 listens if and only
    if MONGODB_URI resolves to a non-empty string, connecting and pinging
    succeed and a listener can be opened on the address it chose;
    src/main.go needs a .env file that loads, the same of the database, and
    a listener on :8080. *)
Theorem listens_iff_reachable (m : machine) :
  (listens (Part000.run m) ↔
     reachable m ∧ net_Listen m (chosen_address m) = None) ∧
  (listens (MainGo.run m) ↔
     is_Some (dotenv_file m) ∧ reachable m ∧ net_Listen m ":8080" = None).
Proof.
  rewrite Part000_run, MainGo_run. unfold listens, reachable, served_or_exit.
  destruct (dotenv_file m) as [vars|];
    destruct (decide (resolved m "MONGODB_URI" = "")) as [Huri|Huri];
    destruct (connect_error m) as [cerr|];
    destruct (ping_error m) as [perr|];
    destruct (net_Listen m (chosen_address m)) as [lerr|];
    destruct (net_Listen m ":8080") as [lerr'|]; simpl;
    (split;
      (split;
        [ intros (r & addr & Hin);
          first [ by (exfalso; set_solver) | by repeat (split; eauto) ]
        | intros Hok;
          first [ by (exfalso; naive_solver)
                | by (eexists _, _; apply list_elem_of_In; simpl; eauto 10) ] ])).
Qed.

(** X10: the driver is given the resolved URI, and the ping follows the
    connect.  In either program a connection is made only with the
    non-empty value MONGODB_URI resolves to, and a ping appears only
    directly after that connection, with the 15 second timeout. *)
Theorem database_contacted_in_order (m : machine) (tr : list event) :
  tr = MainGo.run m ∨ tr = Part000.run m →
  (∀ uri, Connected uri ∈ tr →
     uri = resolved m "MONGODB_URI" ∧ uri ≠ "" ∧ connect_error m = None) ∧
  (∀ t, Pinged t ∈ tr →
     ∃ before after,
       tr = (before ++ Connected (resolved m "MONGODB_URI") :: Pinged 15 :: after)%list
       ∧ t = 15).
Proof.
  intros Htr.
  assert (Hshape :
    (∃ before after,
       tr = (before ++ Connected (resolved m "MONGODB_URI") :: Pinged 15 :: after)%list
       ∧ resolved m "MONGODB_URI" ≠ "" ∧ connect_error m = None
       ∧ (∀ uri, Connected uri ∉ (before ++ after)%list)
       ∧ (∀ t, Pinged t ∉ (before ++ after)%list)) ∨
    ((∀ uri, Connected uri ∉ tr) ∧ (∀ t, Pinged t ∉ tr))).
  { destruct Htr as [-> | ->]; rewrite ?Part000_run, ?MainGo_run;
      unfold served_or_exit;
      destruct (dotenv_file m) as [vars|];
      destruct (decide (resolved m "MONGODB_URI" = "")) as [Huri|Huri];
      destruct (connect_error m) as [cerr|];
      destruct (ping_error m) as [perr|]; simpl;
      repeat match goal with
             | |- context [net_Listen m ?a] => destruct (net_Listen m a)
             end;
      first [ right; split; intros ?; set_solver
            | left; eexists [_], _; split; [reflexivity|];
              repeat (split; [done|]); split; intros ?; set_solver
            | left; eexists [_; _], _; split; [reflexivity|];
              repeat (split; [done|]); split; intros ?; set_solver ]. }
  destruct Hshape as [(before & after & -> & Huri & Hc & Hnc & Hnp) | [Hnc Hnp]].
  - split.
    + intros uri Hin. apply elem_of_app in Hin as [Hin | Hin].
      { destruct (Hnc uri). set_solver. }
      apply elem_of_cons in Hin as [[= ->] | Hin]; [done|].
      apply elem_of_cons in Hin as [? | Hin]; [done|].
      destruct (Hnc uri). set_solver.
    + intros t Hin. exists before, after. split; [done|].
      apply elem_of_app in Hin as [Hin | Hin].
      { destruct (Hnp t). set_solver. }
      apply elem_of_cons in Hin as [? | Hin]; [done|].
      apply elem_of_cons in Hin as [[= ->] | Hin]; [done|].
      destruct (Hnp t). set_solver.
  - split; [intros uri Hin; by destruct (Hnc uri)|intros t Hin; by destruct (Hnp t)].
Qed.

Lemma database_contacted_in_order_witness :
  (∀ uri, Connected uri ∈ Part000.run render_machine →
     uri = resolved render_machine "MONGODB_URI" ∧ uri ≠ "" ∧
     connect_error render_machine = None) ∧
  (∀ t, Pinged t ∈ Part000.run render_machine →
     ∃ before after,
       Part000.run render_machine =
         (before ++ Connected (resolved render_machine "MONGODB_URI")
                 :: Pinged 15 :: after)%list ∧ t = 15).
Proof.
  apply (database_contacted_in_order render_machine (Part000.run render_machine)).
  right. reflexivity.
Defined.



(** X12: the two programs differ in their last step only.  When the .env
    file loads, src/main.go and src/unnamed/part_000 go through the same
    events up to the last one, and through exactly the same events when
    start-up fails; they part on the listener alone. *)
Theorem programs_agree_until_listen (m : machine) :
  is_Some (dotenv_file m) →
  removelast (MainGo.run m) = removelast (Part000.run m) ∧
  (¬ reachable m → MainGo.run m = Part000.run m).
Proof.
  intros [vars Hvars]. rewrite MainGo_run, Part000_run, Hvars. unfold reachable.
  destruct (decide (resolved m "MONGODB_URI" = "")) as [Huri|Huri];
    destruct (connect_error m) as [cerr|];
    destruct (ping_error m) as [perr|]; simpl; try done.
  split; [done|]. intros Hnot. destruct Hnot. done.
Qed.

Lemma programs_agree_until_listen_witness :
  removelast (MainGo.run local_machine) = removelast (Part000.run local_machine) ∧
  (¬ reachable local_machine → MainGo.run local_machine = Part000.run local_machine).
Proof.
  apply (programs_agree_until_listen local_machine). by eexists.
Defined.

Lemma resolved_lookup (m : machine) (key : string) :
  resolved m key =
  match environ m !! key with
  | Some value => value
  | None =>
      match dotenv_file m with
      | Some vars => default "" (vars !! key)
      | None => ""
      end
  end.
Proof.
  unfold resolved. rewrite lookup_union.
  destruct (environ m !! key) as [value|], (dotenv_file m) as [vars|]; simpl;
    rewrite ?lookup_empty; try done; by destruct (vars !! key).
Qed.

(** X13: the environment of the process wins over the .env file.  With
    the database reachable, the port src/unnamed/part_000 asks a listener
    for is the PORT of the process environment whenever that variable is
    set, whatever the .env file says: its value if not empty, 8080 if
    empty.  The PORT of the .env file counts only when the process
    environment has no PORT at all, and 8080 is used when that one is
    missing or empty too.  The run ends on that listener if it can be
    opened and on exit status 0 if not. *)
Theorem process_environment_wins (m : machine) :
  reachable m →
  let port :=
    match environ m !! "PORT" with
    | Some value => value
    | None =>
        match dotenv_file m with
        | Some vars => default "" (vars !! "PORT")
        | None => ""
        end
    end in
  let addr := ":" ++ (if decide (port = "") then "8080" else port) in
  last (Part000.run m) =
    Some (match net_Listen m addr with
          | None => Listen Part000.router addr
          | Some _ => Exit 0
          end).
Proof.
  intros (Huri & Hc & Hp). simpl. rewrite <- (resolved_lookup m "PORT").
  rewrite Part000_run, Hc, Hp.
  destruct (decide (resolved m "MONGODB_URI" = "")); [done|].
  by destruct (dotenv_file m).
Qed.

Lemma process_environment_wins_witness :
  last (Part000.run
          {| dotenv_file := Some {[ "PORT" := "3000" ]};
             environ := {[ "MONGODB_URI" := "mongodb://db.internal:27017";
                           "PORT" := "10000" ]};
             connect_error := None; ping_error := None;
             listen_error := λ _, None |}) =
    Some (Listen Part000.router ":10000") ∧
  last (Part000.run
          {| dotenv_file := Some {[ "PORT" := "3000" ]};
             environ := {[ "MONGODB_URI" := "mongodb://db.internal:27017";
                           "PORT" := "" ]};
             connect_error := None; ping_error := None;
             listen_error := λ _, None |}) =
    Some (Listen Part000.router ":8080").
Proof.
  split.
  - refine (eq_trans (process_environment_wins _ _) _);
      [split; [by vm_compute|done]|reflexivity].
  - refine (eq_trans (process_environment_wins _ _) _);
      [split; [by vm_compute|done]|reflexivity].
Defined.

(** * The routing table *)

(** X14: only GET and POST on /students are routed.  In either program a
    method and path find a route exactly when the path is /students and the
    method is GET or POST, letter for letter; GET leads to the list handler
    and POST to the create handler. *)
Theorem routing_table (r : Engine) (mth p : string) :
  r = MainGo.router ∨ r = Part000.router →
  (is_Some (lookup_route r mth p) ↔ p = "/students" ∧ (mth = "GET" ∨ mth = "POST")) ∧
  (∀ rt e b, lookup_route r mth p = Some rt →
     (mth = "GET" → handler rt e b = get_students e) ∧
     (mth = "POST" → handler rt e b = post_students e b)).
Proof.
  intros Hr.
  assert (Hlookup : lookup_route r mth p =
    if String.eqb "GET" mth && String.eqb "/students" p
    then Some (mkRoute "GET" "/students" (λ e _, get_students e))
    else if String.eqb "POST" mth && String.eqb "/students" p
    then Some (mkRoute "POST" "/students" post_students)
    else None).
  { destruct Hr as [-> | ->]; reflexivity. }
  rewrite Hlookup.
  destruct (String.eqb_spec "GET" mth) as [Hget | Hget];
    destruct (String.eqb_spec "POST" mth) as [Hpost | Hpost];
    destruct (String.eqb_spec "/students" p) as [Hp | Hp]; simpl.
  all: split;
    [ split;
      [ intros [rt Hrt]; first [ discriminate Hrt | by (split; eauto) ]
      | intros [Hp' [Hm | Hm]]; first [ congruence | by eexists ] ]
    | intros rt e b Hrt; first [ discriminate Hrt | injection Hrt as <- ];
      split; intros Hm; first [ reflexivity | congruence ] ].
Qed.

Lemma routing_table_witness :
  (is_Some (lookup_route MainGo.router "get" "/students") ↔
     "/students" = "/students" ∧ ("get" = "GET" ∨ "get" = "POST")) ∧
  lookup_route MainGo.router "get" "/students" = None ∧
  is_Some (lookup_route MainGo.router "POST" "/students").
Proof.
  split; [|split; [reflexivity|by eexists]].
  apply (routing_table MainGo.router "get" "/students"). by left.
Defined.
